(** * WebApplication.py: product catalogue over an XML column

    A shallow embedding of [src/WebApplication.py]: the PostgreSQL table
    [Products] with its [SERIAL] key, the statements the program sends over
    psycopg2 connections, the ElementTree calls of the read path, Flask's
    [jsonify], the signature demo and the startup block.

    Python exceptions are values of [exn]; a Python function that touches
    the database is a computation in the state-and-exception monad [M].
    The XML parser of the library is a parameter of the read path: every
    statement about [get_products] holds for whatever function the library
    computes. *)

From Stdlib Require Import ZArith Ascii String List Lia.
From stdpp Require Import base option list strings.

Open Scope string_scope.
Open Scope list_scope.
Open Scope Z_scope.

(** ** Python exceptions

    The exceptions the program can meet, and the outcome of a call: a
    value, or a raised exception that nothing in [get_products] or
    [setup_database] catches. *)

Inductive exn : Type :=
  | ParseError        (* xml.etree.ElementTree.ParseError *)
  | AttributeError    (* attribute access on None *)
  | TypeError         (* ET.fromstring(None) *)
  | UndefinedTable    (* psycopg2.errors.UndefinedTable *)
  | UniqueViolation   (* psycopg2.errors.UniqueViolation *)
  | InterfaceError.   (* psycopg2.InterfaceError: connection already closed *)

Inductive result (A : Type) : Type :=
  | Ok (a : A)
  | Raise (e : exn).

Arguments Ok {A} a.
Arguments Raise {A} e.

(** ** xml.etree.ElementTree *)

Module ET.

(** An [Element]: its tag, its [text] attribute (the character data that
    precedes the first child, [None] when there is none) and its children
    in document order.  Attributes and [tail] are never read by the program
    and are not represented. *)
#[warnings="-register-all"]
Inductive Element : Type :=
  Elem { tag : string; text : option string; children : list Element }.

(** [element.find(name)] with a plain tag name: the first direct child
    carrying that tag, [None] when there is none. *)
Definition find (name : string) (e : Element) : option Element :=
  List.find (fun c => String.eqb (tag c) name) (children e).

(** *** A reference parser for plain documents

    The parser behind [ET.fromstring] is not defined here: the read path
    takes it as a parameter.  What follows decides a small class of
    documents, the
    plain ones, and says nothing about any other: a plain document is made
    of elements with ASCII names and no attributes, of character data in
    printable ASCII, tab and line feed, and of the five predefined entity
    references, possibly after the declaration [xml_decl] as its very first
    bytes.  On a plain document [parse] gives the tree the library builds,
    or [NotWellFormed] where the library raises [ParseError]; on anything
    else (comments, CDATA, DOCTYPE, processing instructions, attributes,
    prefixed names, numeric or unknown references, carriage returns, a
    closing bracket in character data, bytes outside ASCII, markup that
    does not lex) it answers [Unsupported]. *)

Inductive verdict : Type :=
  | Parsed (root : Element)
  | NotWellFormed
  | Unsupported.

Inductive token : Type :=
  | TStart (name : string)
  | TEnd (name : string)
  | TEmptyTag (name : string)
  | TData (s : string).

Definition snoc (s : string) (c : ascii) : string := s +:+ String c EmptyString.

(** White space inside tags and around the root: space, tab, line feed. *)
Definition is_space (c : ascii) : bool :=
  let n := nat_of_ascii c in
  (n =? 32)%nat || (n =? 9)%nat || (n =? 10)%nat.

Definition is_name_start (c : ascii) : bool :=
  let n := nat_of_ascii c in
  ((65 <=? n) && (n <=? 90))%nat || ((97 <=? n) && (n <=? 122))%nat
  || (n =? 95)%nat.

Definition is_name_char (c : ascii) : bool :=
  let n := nat_of_ascii c in
  is_name_start c || ((48 <=? n) && (n <=? 57))%nat
  || (n =? 45)%nat || (n =? 46)%nat.

(** Character data the parser decides: tab, line feed and printable ASCII,
    the closing bracket excepted ([<] and [&] are markup). *)
Definition is_data_char (c : ascii) : bool :=
  let n := nat_of_ascii c in
  ((n =? 9)%nat || (n =? 10)%nat || ((32 <=? n) && (n <=? 126))%nat)
  && negb (n =? 93)%nat.

Fixpoint all_chars (p : ascii -> bool) (s : string) : bool :=
  match s with
  | EmptyString => true
  | String c r => p c && all_chars p r
  end.

Definition is_name (s : string) : bool :=
  match s with
  | EmptyString => false
  | String c r => is_name_start c && all_chars is_name_char r
  end.

(** Drops the white space that may follow the name inside a tag. *)
Fixpoint rstrip (s : string) : string :=
  match s with
  | EmptyString => EmptyString
  | String c r =>
      match rstrip r with
      | EmptyString => if is_space c then EmptyString else String c EmptyString
      | r' => String c r'
      end
  end.

(** Splits off the last character. *)
Fixpoint unsnoc (s : string) : option (string * ascii) :=
  match s with
  | EmptyString => None
  | String c r =>
      match unsnoc r with
      | None => Some (EmptyString, c)
      | Some (r', l) => Some (String c r', l)
      end
  end.

Definition named (mk : string -> token) (s : string) : option token :=
  let n := rstrip s in if is_name n then Some (mk n) else None.

(** The token for the markup found between [<] and [>], when it is a start
    tag, an end tag or an empty-element tag that carries a name only. *)
Definition tag_token (body : string) : option token :=
  match body with
  | EmptyString => None
  | String c r =>
      if Ascii.eqb c "/" then named TEnd r
      else
        match unsnoc body with
        | Some (inner, l) =>
            if Ascii.eqb l "/" then named TEmptyTag inner else named TStart body
        | None => None
        end
  end.

Definition dquote : ascii := ascii_of_nat 34.

(** The predefined entities. *)
Definition entity (name : string) : option ascii :=
  if String.eqb name "lt" then Some "<"%char
  else if String.eqb name "gt" then Some ">"%char
  else if String.eqb name "amp" then Some "&"%char
  else if String.eqb name "quot" then Some dquote
  else if String.eqb name "apos" then Some "'"%char
  else None.

Inductive lex_mode : Type :=
  | InData (buf : string)
  | InRef (buf ref : string)
  | InTag (buf : string).

Definition data_token (buf : string) : list token :=
  match buf with
  | EmptyString => []
  | _ => [TData buf]
  end.

(** The tokens of a plain document; [None] as soon as something is met
    that plain documents do not contain. *)
Fixpoint lex (m : lex_mode) (s : string) : option (list token) :=
  match s with
  | EmptyString =>
      match m with
      | InData buf => Some (data_token buf)
      | _ => None
      end
  | String c rest =>
      match m with
      | InData buf =>
          if Ascii.eqb c "<" then
            match lex (InTag EmptyString) rest with
            | Some ts => Some (data_token buf ++ ts)
            | None => None
            end
          else if Ascii.eqb c "&" then lex (InRef buf EmptyString) rest
          else if is_data_char c then lex (InData (snoc buf c)) rest
          else None
      | InRef buf ref =>
          if Ascii.eqb c ";" then
            match entity ref with
            | Some ch => lex (InData (snoc buf ch)) rest
            | None => None
            end
          else if is_name_char c then lex (InRef buf (snoc ref c)) rest
          else None
      | InTag buf =>
          if Ascii.eqb c ">" then
            match tag_token buf, lex (InData EmptyString) rest with
            | Some t, Some ts => Some (t :: ts)
            | _, _ => None
            end
          else if Ascii.eqb c "<" then None
          else lex (InTag (snoc buf c)) rest
      end
  end.

(** An element under construction: its tag, the text collected so far and
    the children already closed, most recent first. *)
Record frame : Type := Frame {
  f_tag : string;
  f_text : option string;
  f_kids : list Element
}.

Definition add_child (e : Element) (f : frame) : frame :=
  Frame (f_tag f) (f_text f) (e :: f_kids f).

(** Character data before the first child extends [text]; data after a
    child would be that child's [tail], which is not represented. *)
Definition add_data (s : string) (f : frame) : frame :=
  match f_kids f with
  | [] => Frame (f_tag f) (Some (default EmptyString (f_text f) +:+ s)) []
  | _ => f
  end.

Definition close_frame (f : frame) : Element :=
  Elem (f_tag f) (f_text f) (rev (f_kids f)).

(** Hands a finished element to its parent, or makes it the root. *)
Definition attach (e : Element) (stack : list frame) (root : option Element)
  : option (list frame * option Element) :=
  match stack with
  | f :: fs => Some (add_child e f :: fs, root)
  | [] =>
      match root with
      | None => Some ([], Some e)
      | Some _ => None
      end
  end.

(** The tree of a token sequence; [None] when the tags do not nest, an
    element stays open, there is no root or more than one, or text other
    than white space lies outside the root. *)
Fixpoint build (ts : list token) (stack : list frame) (root : option Element)
  : option Element :=
  match ts with
  | [] =>
      match stack with
      | [] => root
      | _ :: _ => None
      end
  | TStart n :: ts' =>
      match stack, root with
      | [], Some _ => None
      | _, _ => build ts' (Frame n None [] :: stack) root
      end
  | TEmptyTag n :: ts' =>
      match attach (Elem n None []) stack root with
      | Some (stack', root') => build ts' stack' root'
      | None => None
      end
  | TEnd n :: ts' =>
      match stack with
      | f :: fs =>
          if String.eqb (f_tag f) n then
            match attach (close_frame f) fs root with
            | Some (stack', root') => build ts' stack' root'
            | None => None
            end
          else None
      | [] => None
      end
  | TData s :: ts' =>
      match stack with
      | f :: fs => build ts' (add_data s f :: fs) root
      | [] => if all_chars is_space s then build ts' [] root else None
      end
  end.

(** The one declaration plain documents may start with: [version] followed
    by 1.0 between double quotes. *)
Definition xml_decl : string :=
  "<?xml version=" +:+ String dquote "1.0" +:+ String dquote "?>".

Fixpoint strip_prefix (p s : string) : option string :=
  match p, s with
  | EmptyString, _ => Some s
  | String a p', String b s' =>
      if Ascii.eqb a b then strip_prefix p' s' else None
  | String _ _, EmptyString => None
  end.

Definition after_decl (s : string) : string :=
  default s (strip_prefix xml_decl s).

Definition parse (s : string) : verdict :=
  match lex (InData EmptyString) (after_decl s) with
  | None => Unsupported
  | Some ts =>
      match build ts [] None with
      | Some root => Parsed root
      | None => NotWellFormed
      end
  end.

(** A function [parser], from a text to the root of its tree or to [None]
    where the text is rejected, answers document [src] as the reference
    parser does; nothing is asked of it where the reference parser has no
    answer. *)
Definition agrees (parser : string -> option Element) (src : string) : Prop :=
  match parse src with
  | Parsed root => parser src = Some root
  | NotWellFormed => parser src = None
  | Unsupported => True
  end.

(** A function to instantiate statements with: the reference parser on
    plain documents.  Its answer on the other documents ([None]) is a
    placeholder about which nothing is stated. *)
Definition plain_parser (src : string) : option Element :=
  match parse src with
  | Parsed root => Some root
  | _ => None
  end.

End ET.
(** ** The database server

    One row of [Products].  [Name] and [Details] are nullable columns;
    [ProductID] is the primary key. *)
Record row : Type := Row {
  ProductID : Z;
  Name : option string;
  Details : option string
}.

(** The table together with the sequence behind its [SERIAL] column: the
    rows in heap order and the value the next [nextval] hands out.  The
    sequence's upper bound is not modelled. *)
Record table : Type := Table {
  rows : list row;
  next_id : Z
}.

Inductive conn_status : Type := Open | Closed.

(** The server as the program sees it: the table (absent until created) and
    every connection made so far, indexed by the order of creation. *)
Record store : Type := Store {
  products : option table;
  conns : list conn_status
}.

Definition stored_rows (s : store) : list row :=
  match products s with
  | Some t => rows t
  | None => []
  end.

(** ** The monad of database programs *)

Definition M (A : Type) : Type := store -> store * result A.

Definition ret {A} (a : A) : M A := fun s => (s, Ok a).

Definition raise {A} (e : exn) : M A := fun s => (s, Raise e).

Definition bind {A B} (m : M A) (k : A -> M B) : M B :=
  fun s =>
    match m s with
    | (s', Ok a) => k a s'
    | (s', Raise e) => (s', Raise e)
    end.

Notation "x <- m ;; k" := (bind m (fun x => k))
  (at level 100, m at next level, right associativity).

(** A pure computation that may raise, run inside a database program. *)
Definition lift {A} (r : result A) : M A := fun s => (s, r).

(** *** psycopg2 *)

Record cursor : Type := Cursor { connection : nat }.

(** [psycopg2.connect] with [conn_params]: a new open connection.  The server
    is taken to accept it. *)
Definition connect : M nat :=
  fun s => (Store (products s) (conns s ++ [Open]), Ok (length (conns s))).

(** A statement sent over connection [c]: it acts on the table when the
    connection is open and raises [InterfaceError] otherwise. *)
Definition on_conn {A} (c : nat)
    (stmt : option table -> option table * result A) : M A :=
  fun s =>
    match conns s !! c with
    | Some Open =>
        let (t, r) := stmt (products s) in (Store t (conns s), r)
    | _ => (s, Raise InterfaceError)
    end.

Definition conn_cursor (c : nat) : M cursor :=
  on_conn c (fun t => (t, Ok (Cursor c))).

Definition cursor_close (cur : cursor) : M unit := ret tt.

Definition commit (c : nat) : M unit :=
  on_conn c (fun t => (t, Ok tt)).

(** [conn.close()]; closing twice is allowed. *)
Definition close (c : nat) : M unit :=
  fun s => (Store (products s) (<[c := Closed]> (conns s)), Ok tt).

(** *** The SQL statements of the program *)

(** [CREATE TABLE IF NOT EXISTS Products (...)]: a new table is empty and
    its sequence starts at 1. *)
Definition execute_create_table (cur : cursor) : M unit :=
  on_conn (connection cur) (fun t =>
    match t with
    | None => (Some (Table [] 1), Ok tt)
    | Some _ => (t, Ok tt)
    end).

(** The [SELECT COUNT] over [Products], followed by [fetchone()[0]]. *)
Definition execute_count (cur : cursor) : M Z :=
  on_conn (connection cur) (fun t =>
    match t with
    | None => (t, Raise UndefinedTable)
    | Some tb => (t, Ok (Z.of_nat (length (rows tb))))
    end).

(** The rows an [INSERT INTO Products (Name, Details) VALUES ...] adds to
    [tb]: each takes the next sequence value as its key, and a key already
    in the table violates the primary key. *)
Fixpoint insert_values (vals : list (string * string)) (tb : table)
  : result table :=
  match vals with
  | [] => Ok tb
  | (name, details) :: rest =>
      let pid := next_id tb in
      if existsb (fun r => ProductID r =? pid) (rows tb)
      then Raise UniqueViolation
      else insert_values rest
             (Table (rows tb ++ [Row pid (Some name) (Some details)])
                    (pid + 1))
  end.

Definition execute_insert (cur : cursor) (vals : list (string * string))
  : M unit :=
  on_conn (connection cur) (fun t =>
    match t with
    | None => (t, Raise UndefinedTable)
    | Some tb =>
        match insert_values vals tb with
        | Ok tb' => (Some tb', Ok tt)
        | Raise e => (t, Raise e)
        end
    end).

(** [SELECT ProductID, Name, Details FROM Products] followed by
    [fetchall()]: every row, in the table's order. *)
Definition execute_select (cur : cursor) : M (list row) :=
  on_conn (connection cur) (fun t =>
    match t with
    | None => (t, Raise UndefinedTable)
    | Some tb => (t, Ok (rows tb))
    end).

(** ** setup_database *)

(** The XML declaration that opens both seed documents. *)
Definition xml_decl : string := ET.xml_decl.

Definition laptop_xml : string :=
  xml_decl +:+
  "<product><brand>XYZ</brand><specs><cpu>Intel i7</cpu><ram>16GB</ram><storage>512GB SSD</storage></specs></product>".

Definition smartphone_xml : string :=
  xml_decl +:+
  "<product><brand>ABC</brand><specs><cpu>Snapdragon 888</cpu><ram>8GB</ram><storage>256GB</storage></specs></product>".

Definition seed_values : list (string * string) :=
  [("Laptop", laptop_xml); ("Smartphone", smartphone_xml)].

Definition setup_database : M unit :=
  conn <- connect ;;
  cur <- conn_cursor conn ;;
  _ <- execute_create_table cur ;;
  count <- execute_count cur ;;
  _ <- (if count =? 0 then execute_insert cur seed_values else ret tt) ;;
  _ <- commit conn ;;
  _ <- cursor_close cur ;;
  close conn.

(** ** JSON, responses and attribute access *)

(** A JSON value; a Python dict becomes an object whose members are kept in
    insertion order.  The text [jsonify] finally writes (member order,
    white space) is not modelled. *)
#[warnings="-register-all"]
Inductive json : Type :=
  | JNull
  | JInt (n : Z)
  | JStr (s : string)
  | JArr (items : list json)
  | JObj (members : list (string * json)).

(** A Python [str] or [None] on its way into JSON. *)
Definition of_text (t : option string) : json :=
  match t with
  | Some s => JStr s
  | None => JNull
  end.

Inductive body : Type :=
  | JsonBody (j : json)
  | ErrorPage (e : exn).

Record response : Type := Response {
  status_code : Z;
  content : body
}.

(** [jsonify(products)]: a 200 response carrying the list as a JSON array. *)
Definition jsonify (products : list json) : response :=
  Response 200 (JsonBody (JArr products)).

Definition rbind {A B} (r : result A) (k : A -> result B) : result B :=
  match r with
  | Ok a => k a
  | Raise e => Raise e
  end.

Notation "x <~ r ;; k" := (rbind r (fun x => k))
  (at level 100, r at next level, right associativity).

(** [o.find(name)] and [o.text] where [o] may be [None]: attribute access
    on [None] raises [AttributeError]. *)
Definition find_of (o : option ET.Element) (name : string)
  : result (option ET.Element) :=
  match o with
  | Some e => Ok (ET.find name e)
  | None => Raise AttributeError
  end.

Definition text_of (o : option ET.Element) : result (option string) :=
  match o with
  | Some e => Ok (ET.text e)
  | None => Raise AttributeError
  end.

(** *** Flask

    What the client of a route receives: the view's response, or the
    framework's 500 page when the view raised. *)
Definition dispatch (view : M response) : store -> store * response :=
  fun s =>
    match view s with
    | (s', Ok resp) => (s', resp)
    | (s', Raise e) => (s', Response 500 (ErrorPage e))
    end.

(** The connection a program opens when started in [s]. *)
Definition new_conn (s : store) : nat := length (conns s).

(** ** digital_signature_demo *)

Module Signature.

(** What [cryptography]'s verification may raise, and whether
    [except Exception] catches it. *)
Inductive exc : Type :=
  | InvalidSignature
  | OtherException (msg : string)
  | KeyboardInterrupt.

Definition is_Exception (e : exc) : bool :=
  match e with
  | KeyboardInterrupt => false
  | _ => true
  end.

(** An argument of [print]. *)
Inductive obj : Type :=
  | Str (s : string)
  | Exc (e : exc).

(** Standard output: one entry per [print] call, with its arguments. *)
Definition stdout : Type := list (list obj).

Definition banner : string :=
  String (ascii_of_nat 10) "--- Digital Signature Demo ---".

Definition message : string := "Important transaction data".

Section Demo.

(** The RSA primitives of the library at the parameters the demo fixes
    (public exponent 65537, 2048 bits, PSS with MGF1-SHA256 and maximal
    salt, SHA256), each a function of the randomness it draws. *)
Variables private_key public_key signature entropy : Type.
Variable generate_private_key : entropy -> private_key.
Variable public_key_of : private_key -> public_key.
Variable sign : private_key -> string -> entropy -> signature.
Variable verify : public_key -> signature -> string -> option exc.

(** The demo, run with the randomness [rk] of key generation and [rs] of
    the PSS salt: what it printed, and the exception it let through. *)
Definition digital_signature_demo (rk rs : entropy) : stdout * option exc :=
  let out := [[Str banner]] in
  let priv := generate_private_key rk in
  let pub := public_key_of priv in
  let sig := sign priv message rs in
  let out := out ++ [[Str "Message signed."]] in
  match verify pub sig message with
  | None => (out ++ [[Str "Signature verified successfully!"]], None)
  | Some e =>
      if is_Exception e
      then (out ++ [[Str "Signature verification failed:"; Exc e]], None)
      else (out, Some e)
  end.

End Demo.

End Signature.

(** ** The startup block

    Lines 104 to 126: the performance tips and what the script does when it
    is run. *)

Definition nl : string := String (ascii_of_nat 10) EmptyString.

Definition performance_tips : string :=
  nl +:+ "Performance Considerations:" +:+ nl
  +:+ "1. Use connection pooling for database connections." +:+ nl
  +:+ "2. Cache frequent queries/results." +:+ nl
  +:+ "3. Optimize SQL with indexes and analyze query plans." +:+ nl
  +:+ "4. Use pagination for large datasets." +:+ nl
  +:+ "5. Handle requests asynchronously if possible." +:+ nl
  +:+ "6. Index XML paths if DB supports it." +:+ nl
  +:+ "7. Secure APIs with authentication and encryption." +:+ nl.

(** How the startup block ends: it reaches [app.run(debug=True)], or an
    exception of [setup_database] or of the demo ends the script before. *)
Inductive exit : Type :=
  | Serving
  | SetupFailed (e : exn)
  | DemoFailed (e : Signature.exc).

Section Main.

Variables private_key public_key signature entropy : Type.
Variable generate_private_key : entropy -> private_key.
Variable public_key_of : private_key -> public_key.
Variable sign : private_key -> string -> entropy -> signature.
Variable verify : public_key -> signature -> string -> option Signature.exc.

(** What [public_key.verify] does in the demo: it is handed the signature
    just made over [message] with the generated key, the same message and
    the matching public key.  [None] when it returns, the exception when it
    raises. *)
Definition verification (rk rs : entropy) : option Signature.exc :=
  verify (public_key_of (generate_private_key rk))
         (sign (generate_private_key rk) Signature.message rs)
         Signature.message.

(** The block under [if __name__ == '__main__'], up to the call that starts
    the server: the store it leaves, what it printed and how it ended. *)
Definition main (rk rs : entropy) (s : store)
  : store * Signature.stdout * exit :=
  let out := [[Signature.Str "Setting up database..."]] in
  match setup_database s with
  | (s', Raise e) => (s', out, SetupFailed e)
  | (s', Ok _) =>
      let out := out ++ [[Signature.Str "Database setup complete."]] in
      let (demo_out, raised) :=
        Signature.digital_signature_demo _ _ _ _
          generate_private_key public_key_of sign verify rk rs in
      let out := out ++ demo_out in
      match raised with
      | Some e => (s', out, DemoFailed e)
      | None =>
          let out := out ++ [[Signature.Str performance_tips]] in
          let out := out ++
            [[Signature.Str
                "Starting Flask server at http://127.0.0.1:5000/products"]] in
          (s', out, Serving)
      end
  end.

End Main.

(** ** Specification vocabulary *)

(** The record [{ProductID, Name, CPU, RAM, Storage}] of a row. *)
Definition record (pid : Z) (name cpu ram storage : option string) : json :=
  JObj [("ProductID", JInt pid);
        ("Name", of_text name);
        ("CPU", of_text cpu);
        ("RAM", of_text ram);
        ("Storage", of_text storage)].

(** Member [key] of a JSON object. *)
Definition member (key : string) (j : json) : option json :=
  match j with
  | JObj ms => snd <$> List.find (fun kv => String.eqb (fst kv) key) ms
  | _ => None
  end.

(** The table exists and holds no row. *)
Definition empty_table (s : store) : Prop :=
  exists n, products s = Some (Table [] n).

(** [tb] after the seed rows were inserted into it. *)
Definition seeded (tb : table) : table :=
  Table (rows tb ++
           [Row (next_id tb) (Some "Laptop") (Some laptop_xml);
            Row (next_id tb + 1) (Some "Smartphone") (Some smartphone_xml)])
        (next_id tb + 2).

(** The table [setup_database] leaves: seeded when it was absent or empty,
    untouched otherwise. *)
Definition initialised (t : option table) : table :=
  match t with
  | None => seeded (Table [] 1)
  | Some tb =>
      match rows tb with
      | [] => seeded tb
      | _ :: _ => tb
      end
  end.

(** The records of the two seed rows under the keys [pid] and [pid']. *)
Definition laptop_record (pid : Z) : json :=
  record pid (Some "Laptop") (Some "Intel i7") (Some "16GB") (Some "512GB SSD").

Definition smartphone_record (pid : Z) : json :=
  record pid (Some "Smartphone") (Some "Snapdragon 888") (Some "8GB")
         (Some "256GB").

(** A document without [specs], and a table whose only row holds it. *)
Definition no_specs_xml : string := "<product><brand>XYZ</brand></product>".

Definition no_specs_store : store :=
  Store (Some (Table [Row 1 (Some "Widget") (Some no_specs_xml)] 2)) [].

(** A document with empty [cpu] and [storage] elements, and a table whose
    only row holds it. *)
Definition blank_specs_xml : string :=
  "<product><specs><cpu></cpu><ram>8GB</ram><storage/></specs></product>".

Definition blank_specs_store : store :=
  Store (Some (Table [Row 7 (Some "Tablet") (Some blank_specs_xml)] 8)) [].

(** The store a program leaves behind, and its outcome. *)
Definition after {A} (m : M A) (s : store) : store := fst (m s).
Definition outcome {A} (m : M A) (s : store) : result A := snd (m s).

(** The number of connections that are open. *)
Fixpoint count_open (l : list conn_status) : nat :=
  match l with
  | [] => 0%nat
  | Open :: l' => S (count_open l')
  | Closed :: l' => count_open l'
  end.

(** The status in which a view leaves its connection. *)
Definition left_as {A} (r : result A) : conn_status :=
  match r with
  | Ok _ => Closed
  | Raise _ => Open
  end.

(** The primary key is unique and every key was handed out by the
    sequence. *)
Definition keys_consistent (tb : table) : Prop :=
  NoDup (map ProductID (rows tb)) /\
  Forall (fun r => ProductID r < next_id tb) (rows tb).

(** ** get_products

    The read path, for the XML parser of the library: [parser] is what
    [ET.fromstring] makes of a text, the root element of its tree, or
    [None] where it raises [ParseError]. *)

Section Catalogue.

Variable parser : string -> option ET.Element.

(** [ET.fromstring(text)]: the root element, [ParseError] on a document
    the parser rejects, [TypeError] when handed [None] (a SQL NULL). *)
Definition fromstring (src : option string) : result ET.Element :=
  match src with
  | None => Raise TypeError
  | Some s =>
      match parser s with
      | Some root => Ok root
      | None => Raise ParseError
      end
  end.

(** The body of the [for] loop, up to the dict it appends. *)
Definition product_of_row (r : row) : result json :=
  let '(Row pid name details_xml) := r in
  root <~ fromstring details_xml ;;
  specs <~ Ok (ET.find "specs" root) ;;
  cpu_el <~ find_of specs "cpu" ;;
  cpu <~ text_of cpu_el ;;
  ram_el <~ find_of specs "ram" ;;
  ram <~ text_of ram_el ;;
  storage_el <~ find_of specs "storage" ;;
  storage <~ text_of storage_el ;;
  Ok (JObj [("ProductID", JInt pid);
            ("Name", of_text name);
            ("CPU", of_text cpu);
            ("RAM", of_text ram);
            ("Storage", of_text storage)]).

(** The loop over the fetched rows; the first exception ends it. *)
Fixpoint for_rows (rs : list row) (products : list json)
  : result (list json) :=
  match rs with
  | [] => Ok products
  | r :: rest =>
      p <~ product_of_row r ;;
      for_rows rest (products ++ [p])
  end.

Definition get_products : M response :=
  conn <- connect ;;
  cur <- conn_cursor conn ;;
  rows <- execute_select cur ;;
  products <- lift (for_rows rows []) ;;
  _ <- cursor_close cur ;;
  _ <- close conn ;;
  ret (jsonify products).

Definition GET_products : store -> store * response := dispatch get_products.

(** [k] GET /products requests handled one after the other. *)
Fixpoint serve (k : nat) (s : store) : store :=
  match k with
  | O => s
  | S k' => serve k' (fst (GET_products s))
  end.

(** *** Vocabulary of the read path *)

(** Row [r]'s Details document parses, its root has a [specs] child, and
    that child has [cpu], [ram] and [storage] children whose text contents
    are [cpu], [ram] and [storage]. *)
Definition has_specs (r : row) (cpu ram storage : option string) : Prop :=
  exists root specs c m st,
    fromstring (Details r) = Ok root /\
    ET.find "specs" root = Some specs /\
    ET.find "cpu" specs = Some c /\
    ET.find "ram" specs = Some m /\
    ET.find "storage" specs = Some st /\
    ET.text c = cpu /\ ET.text m = ram /\ ET.text st = storage.

Definition well_shaped (r : row) : Prop :=
  exists cpu ram storage, has_specs r cpu ram storage.

(** What the loop of [get_products] appends for a well-shaped row [r]. *)
Definition emits (r : row) (j : json) : Prop :=
  exists cpu ram storage,
    has_specs r cpu ram storage /\
    j = record (ProductID r) (Name r) cpu ram storage.

(** Row [r] cannot be decomposed: [ET.fromstring] raises on its Details
    column (a NULL, a document the parser rejects), or the root of the
    document has no [specs] child. *)
Definition malformed_or_no_specs (r : row) : Prop :=
  (exists e, fromstring (Details r) = Raise e) \/
  (exists root, fromstring (Details r) = Ok root /\
                ET.find "specs" root = None).

(** Why row [r] cannot be turned into a record, and the exception that
    goes with it: its Details column is NULL; the parser rejects its
    document; the root has no [specs] child; [specs] lacks one of [cpu],
    [ram], [storage]. *)
Inductive fails_with (r : row) : exn -> Prop :=
  | fails_null :
      Details r = None -> fails_with r TypeError
  | fails_parse (src : string) :
      Details r = Some src -> parser src = None -> fails_with r ParseError
  | fails_no_specs (root : ET.Element) :
      fromstring (Details r) = Ok root ->
      ET.find "specs" root = None ->
      fails_with r AttributeError
  | fails_no_child (root specs : ET.Element) :
      fromstring (Details r) = Ok root ->
      ET.find "specs" root = Some specs ->
      ET.find "cpu" specs = None \/ ET.find "ram" specs = None \/
        ET.find "storage" specs = None ->
      fails_with r AttributeError.

(** What GET /products answers on a given table: the view's outcome as a
    function of the table alone. *)
Definition answer (t : option table) : result response :=
  match t with
  | None => Raise UndefinedTable
  | Some tb =>
      match for_rows (rows tb) [] with
      | Ok items => Ok (jsonify items)
      | Raise e => Raise e
      end
  end.

(** The parser answers the two seed documents as the reference parser
    does. *)
Definition parses_seed : Prop :=
  ET.agrees parser laptop_xml /\ ET.agrees parser smartphone_xml.

(** * Properties *)

(** ** Symbolic execution of the two database programs *)

Lemma new_conn_open (l : list conn_status) :
  (l ++ [Open]) !! length l = Some Open.
Proof. by apply list_lookup_middle. Qed.

Lemma close_new_conn (l : list conn_status) :
  <[length l := Closed]> (l ++ [Open]) = l ++ [Closed].
Proof.
  induction l as [|c l IH]; simpl; [reflexivity|].
  by rewrite IH.
Qed.

Lemma on_conn_new {A} (l : list conn_status) (t : option table)
    (stmt : option table -> option table * result A) :
  on_conn (length l) stmt (Store t (l ++ [Open])) =
    (let (t', r) := stmt t in (Store t' (l ++ [Open]), r)).
Proof. unfold on_conn; simpl. by rewrite new_conn_open. Qed.

(** Unfolds the monadic plumbing, leaving the statements on the new
    connection to [on_conn_new]. *)
Ltac run_program :=
  unfold bind, connect, conn_cursor, execute_create_table, execute_count,
    execute_insert, execute_select, commit, cursor_close, close, lift, ret;
  repeat (progress (simpl; rewrite ?on_conn_new)).

Lemma get_products_run (s : store) :
  get_products s =
    match products s with
    | None => (Store None (conns s ++ [Open]), Raise UndefinedTable)
    | Some tb =>
        match for_rows (rows tb) [] with
        | Ok items => (Store (Some tb) (conns s ++ [Closed]), Ok (jsonify items))
        | Raise e => (Store (Some tb) (conns s ++ [Open]), Raise e)
        end
    end.
Proof.
  unfold get_products. run_program.
  destruct (products s) as [tb|]; simpl; [|reflexivity].
  destruct (for_rows (rows tb) []); simpl; [|reflexivity].
  by rewrite close_new_conn.
Qed.

Lemma insert_seed_values (n : Z) :
  insert_values seed_values (Table [] n) = Ok (seeded (Table [] n)).
Proof.
  unfold seed_values, seeded; simpl.
  replace (n =? n + 1) with false by (symmetry; apply Z.eqb_neq; lia).
  simpl. do 2 f_equal. lia.
Qed.

#[local] Arguments insert_values : simpl never.

Lemma setup_database_run (s : store) :
  setup_database s =
    (Store (Some (initialised (products s))) (conns s ++ [Closed]), Ok tt).
Proof.
  unfold setup_database. run_program.
  destruct (products s) as [[[|r rs] n]|]; run_program;
    rewrite ?insert_seed_values; run_program;
    by rewrite close_new_conn.
Qed.

(** ** The reference parser on the documents of the catalogue *)

Example parse_laptop :
  ET.parse laptop_xml =
    ET.Parsed
      (ET.Elem "product" None
         [ET.Elem "brand" (Some "XYZ") [];
          ET.Elem "specs" None
            [ET.Elem "cpu" (Some "Intel i7") [];
             ET.Elem "ram" (Some "16GB") [];
             ET.Elem "storage" (Some "512GB SSD") []]]).
Proof. reflexivity. Qed.

Example parse_smartphone :
  ET.parse smartphone_xml =
    ET.Parsed
      (ET.Elem "product" None
         [ET.Elem "brand" (Some "ABC") [];
          ET.Elem "specs" None
            [ET.Elem "cpu" (Some "Snapdragon 888") [];
             ET.Elem "ram" (Some "8GB") [];
             ET.Elem "storage" (Some "256GB") []]]).
Proof. reflexivity. Qed.

Example parse_no_specs :
  ET.parse no_specs_xml =
    ET.Parsed (ET.Elem "product" None [ET.Elem "brand" (Some "XYZ") []]).
Proof. reflexivity. Qed.

Example parse_blank_specs :
  ET.parse blank_specs_xml =
    ET.Parsed
      (ET.Elem "product" None
         [ET.Elem "specs" None
            [ET.Elem "cpu" None []; ET.Elem "ram" (Some "8GB") [];
             ET.Elem "storage" None []]]).
Proof. reflexivity. Qed.

Example parse_text_before_child :
  ET.parse "<a> x &amp; y<b/>tail</a>" =
    ET.Parsed (ET.Elem "a" (Some " x & y") [ET.Elem "b" None []]).
Proof. reflexivity. Qed.

Example parse_unclosed :
  ET.parse "<product><specs></product>" = ET.NotWellFormed.
Proof. reflexivity. Qed.

Example parse_two_roots : ET.parse "<a/><b/>" = ET.NotWellFormed.
Proof. reflexivity. Qed.

Example parse_no_element : ET.parse "Intel i7" = ET.NotWellFormed.
Proof. reflexivity. Qed.

(** Documents on which the reference parser has no answer: an attribute,
    a comment, a numeric reference, a prefixed name, a processing
    instruction, a closing bracket in character data. *)
Example parse_unsupported :
  ET.parse "<product id='7'/>" = ET.Unsupported /\
  ET.parse "<product><!-- none --></product>" = ET.Unsupported /\
  ET.parse "<cpu>i7&#174;</cpu>" = ET.Unsupported /\
  ET.parse "<product><x:y/></product>" = ET.Unsupported /\
  ET.parse "<?xml?><product/>" = ET.Unsupported /\
  ET.parse "<cpu>a]]>b</cpu>" = ET.Unsupported.
Proof. repeat split; reflexivity. Qed.

Example find_is_first_direct_child :
  ET.find "b" (ET.Elem "a" None
                 [ET.Elem "c" None [ET.Elem "b" (Some "deep") []];
                  ET.Elem "b" (Some "one") []; ET.Elem "b" (Some "two") []])
    = Some (ET.Elem "b" (Some "one") []).
Proof. reflexivity. Qed.

(** A parser that agrees with the reference parser returns its tree. *)
Lemma agrees_parsed (src : string) (root : ET.Element) :
  ET.parse src = ET.Parsed root ->
  ET.agrees parser src ->
  fromstring (Some src) = Ok root.
Proof. unfold ET.agrees, fromstring. by intros -> ->. Qed.

(** ** The loop of [get_products] *)

Lemma product_of_row_shaped (r : row) (cpu ram storage : option string) :
  has_specs r cpu ram storage ->
  product_of_row r = Ok (record (ProductID r) (Name r) cpu ram storage).
Proof.
  intros (root & specs & c & m & st & Hroot & Hspecs & Hc & Hm & Hst
          & <- & <- & <-).
  destruct r as [pid name details]; simpl in *.
  rewrite Hroot; simpl. rewrite Hspecs; simpl.
  rewrite Hc; simpl. rewrite Hm; simpl. rewrite Hst; simpl.
  reflexivity.
Qed.

Lemma product_of_row_raises (r : row) :
  malformed_or_no_specs r -> exists e, product_of_row r = Raise e.
Proof.
  destruct r as [pid name details]; simpl.
  intros [[e He] | (root & Hroot & Hspecs)]; simpl in *.
  - exists e. by rewrite He.
  - exists AttributeError. rewrite Hroot; simpl. by rewrite Hspecs.
Qed.

Lemma for_rows_shaped (rs : list row) :
  Forall well_shaped rs ->
  forall acc, exists items,
    for_rows rs acc = Ok (acc ++ items) /\ Forall2 emits rs items.
Proof.
  induction 1 as [|r rs (cpu & ram & storage & Hr) _ IH]; intros acc.
  - exists []. split; [simpl; by rewrite app_nil_r | constructor].
  - destruct (IH (acc ++ [record (ProductID r) (Name r) cpu ram storage]))
      as (items & Hrun & Hitems).
    exists (record (ProductID r) (Name r) cpu ram storage :: items).
    split.
    + simpl. rewrite (product_of_row_shaped r cpu ram storage Hr); simpl.
      rewrite Hrun. by rewrite <- app_assoc.
    + constructor; [|exact Hitems]. by exists cpu, ram, storage.
Qed.

Lemma for_rows_raises (rs : list row) (r : row) :
  In r rs -> (exists e, product_of_row r = Raise e) ->
  forall acc, exists e, for_rows rs acc = Raise e.
Proof.
  intros Hin [e He].
  induction rs as [|r' rs IH]; intros acc; [destruct Hin|].
  simpl. destruct Hin as [-> | Hin].
  - exists e. by rewrite He.
  - destruct (product_of_row r') as [p|e']; simpl; [|by exists e'].
    apply (IH Hin).
Qed.

Lemma get_products_shaped (s : store) (tb : table) :
  products s = Some tb ->
  Forall well_shaped (rows tb) ->
  exists items,
    get_products s = (Store (Some tb) (conns s ++ [Closed]), Ok (jsonify items))
    /\ Forall2 emits (rows tb) items.
Proof.
  intros Htb Hrows.
  destruct (for_rows_shaped (rows tb) Hrows []) as (items & Hrun & Hitems).
  exists items. split; [|exact Hitems].
  rewrite get_products_run, Htb, Hrun. reflexivity.
Qed.

Lemma has_specs_functional (r : row) (cpu ram storage cpu' ram' storage' : option string) :
  has_specs r cpu ram storage -> has_specs r cpu' ram' storage' ->
  cpu = cpu' /\ ram = ram' /\ storage = storage'.
Proof.
  intros (root & specs & c & m & st & Hroot & Hspecs & Hc & Hm & Hst
          & <- & <- & <-)
         (root' & specs' & c' & m' & st' & Hroot' & Hspecs' & Hc' & Hm' & Hst'
          & <- & <- & <-).
  rewrite Hroot in Hroot'. injection Hroot' as <-.
  rewrite Hspecs in Hspecs'. injection Hspecs' as <-.
  rewrite Hc in Hc'. rewrite Hm in Hm'. rewrite Hst in Hst'.
  injection Hc' as <-. injection Hm' as <-. injection Hst' as <-.
  done.
Qed.

(** ** The catalogue reader *)

(** C1. In every store whose table has only well-shaped rows (the Details
    document parses and has a [specs] child with [cpu], [ram] and [storage]
    children), [get_products] returns a 200 response whose JSON array holds,
    row by row and in the table's order, exactly one record
    [{ProductID, Name, CPU, RAM, Storage}] per row, carrying the text of
    [specs/cpu], [specs/ram] and [specs/storage] of that row's document. *)
Theorem get_products_one_record_per_row (s : store) (tb : table) :
  products s = Some tb ->
  Forall well_shaped (rows tb) ->
  exists items,
    outcome get_products s = Ok (Response 200 (JsonBody (JArr items))) /\
    Forall2 emits (rows tb) items.
Proof.
  intros Htb Hrows.
  destruct (get_products_shaped s tb Htb Hrows) as (items & Hrun & Hitems).
  exists items. split; [|exact Hitems].
  unfold outcome. by rewrite Hrun.
Qed.


(** C3. When [ET.fromstring] raises on the Details column of some stored
    row (a document the parser rejects as not well formed, a NULL), or the
    root of its document has no [specs] child, [get_products] raises:
    the client receives the framework's 500 page, and no response built by
    [jsonify] (hence no record for that row, partial or not) is returned. *)
Theorem get_products_fails_on_bad_row (s : store) (tb : table) (r : row) :
  products s = Some tb ->
  In r (rows tb) ->
  malformed_or_no_specs r ->
  (exists e, outcome get_products s = Raise e /\
             snd (GET_products s) = Response 500 (ErrorPage e)) /\
  (forall resp, outcome get_products s <> Ok resp).
Proof.
  intros Htb Hin Hbad.
  destruct (for_rows_raises (rows tb) r Hin (product_of_row_raises r Hbad) [])
    as [e He].
  unfold outcome, GET_products, dispatch.
  rewrite get_products_run, Htb, He; simpl.
  split; [by exists e | discriminate].
Qed.


(** C6. On an empty table [get_products] answers 200 with the empty JSON
    array. *)
Theorem get_products_empty_table (s : store) :
  empty_table s ->
  outcome get_products s = Ok (jsonify []) /\
  snd (GET_products s) = Response 200 (JsonBody (JArr [])).
Proof.
  intros [n Hn].
  unfold outcome, GET_products, dispatch.
  rewrite get_products_run, Hn; simpl. by split.
Qed.


(** C9. A GET /products request leaves the table as it found it, whether
    the view returns or raises: the same rows, in the same order, and the
    same sequence value. *)
Theorem get_products_leaves_table (s : store) :
  products (after get_products s) = products s /\
  products (fst (GET_products s)) = products s /\
  stored_rows (after get_products s) = stored_rows s.
Proof.
  assert (H : products (after get_products s) = products s).
  { unfold after. rewrite get_products_run.
    destruct (products s) as [tb|]; [|reflexivity].
    by destruct (for_rows (rows tb) []). }
  split; [exact H|]. split.
  - unfold GET_products, dispatch. unfold after in H.
    by destruct (get_products s) as [s' [resp|e]].
  - unfold stored_rows. by rewrite H.
Qed.

(** C10. If every row is well shaped and the row at position [i] has a
    [cpu], [ram] or [storage] element without text, the request succeeds
    with status 200 and the record at position [i] carries JSON null under
    the corresponding key. *)
Theorem get_products_null_for_blank_element
    (s : store) (tb : table) (i : nat) (r : row)
    (root specs c m st : ET.Element) :
  products s = Some tb ->
  Forall well_shaped (rows tb) ->
  rows tb !! i = Some r ->
  fromstring (Details r) = Ok root ->
  ET.find "specs" root = Some specs ->
  ET.find "cpu" specs = Some c ->
  ET.find "ram" specs = Some m ->
  ET.find "storage" specs = Some st ->
  exists items j,
    snd (GET_products s) = Response 200 (JsonBody (JArr items)) /\
    items !! i = Some j /\
    j = record (ProductID r) (Name r) (ET.text c) (ET.text m) (ET.text st) /\
    (ET.text c = None -> member "CPU" j = Some JNull) /\
    (ET.text m = None -> member "RAM" j = Some JNull) /\
    (ET.text st = None -> member "Storage" j = Some JNull).
Proof.
  intros Htb Hrows Hi Hroot Hspecs Hc Hm Hst.
  destruct (get_products_shaped s tb Htb Hrows) as (items & Hrun & Hitems).
  destruct (Forall2_lookup_l _ _ _ _ _ Hitems Hi)
    as (j & Hj & cpu & ram & storage & Hr & ->).
  assert (Hr' : has_specs r (ET.text c) (ET.text m) (ET.text st))
    by (by exists root, specs, c, m, st).
  destruct (has_specs_functional _ _ _ _ _ _ _ Hr Hr') as (-> & -> & ->).
  exists items, (record (ProductID r) (Name r) (ET.text c) (ET.text m) (ET.text st)).
  unfold GET_products, dispatch. rewrite Hrun.
  repeat split; try done; intros ->; reflexivity.
Qed.


(** ** The connection of a request *)

Lemma get_products_closes_on_success (s : store) (resp : response) :
  outcome get_products s = Ok resp ->
  conns (after get_products s) !! new_conn s = Some Closed.
Proof.
  unfold outcome, after, new_conn. rewrite get_products_run.
  destruct (products s) as [tb|]; [|discriminate].
  destruct (for_rows (rows tb) []); [|discriminate].
  intros _; simpl. by apply list_lookup_middle.
Qed.

Lemma get_products_open_on_raise (s : store) (e : exn) :
  outcome get_products s = Raise e ->
  conns (after get_products s) !! new_conn s = Some Open.
Proof.
  unfold outcome, after, new_conn. rewrite get_products_run.
  destruct (products s) as [tb|]; simpl.
  - destruct (for_rows (rows tb) []); [discriminate|].
    intros _; simpl. apply new_conn_open.
  - intros _. apply new_conn_open.
Qed.

(** C5. On a table whose row has a Details document without [specs]
    (parsed as the reference parser parses it), the view raises
    [AttributeError] at line 61 and returns without reaching [cur.close()]
    and [conn.close()]: the connection it opened is still open when the
    request is over. *)
Theorem get_products_error_leaves_connection_open :
  ET.agrees parser no_specs_xml ->
  outcome get_products no_specs_store = Raise AttributeError /\
  conns (after get_products no_specs_store) !! new_conn no_specs_store
    = Some Open /\
  conns (fst (GET_products no_specs_store)) !! new_conn no_specs_store
    = Some Open.
Proof.
  intros Hdoc.
  pose proof (agrees_parsed _ _ parse_no_specs Hdoc) as Hroot.
  unfold outcome, after, GET_products, dispatch.
  rewrite get_products_run.
  unfold no_specs_store; cbn [products rows for_rows product_of_row rbind].
  rewrite Hroot. repeat split; reflexivity.
Qed.

(** ** The schema initialiser *)

Lemma laptop_has_specs (n : Z) :
  ET.agrees parser laptop_xml ->
  has_specs (Row n (Some "Laptop") (Some laptop_xml))
            (Some "Intel i7") (Some "16GB") (Some "512GB SSD").
Proof.
  intros Hdoc. do 5 eexists.
  split; [exact (agrees_parsed _ _ parse_laptop Hdoc)|].
  repeat split; reflexivity.
Qed.

Lemma smartphone_has_specs (n : Z) :
  ET.agrees parser smartphone_xml ->
  has_specs (Row n (Some "Smartphone") (Some smartphone_xml))
            (Some "Snapdragon 888") (Some "8GB") (Some "256GB").
Proof.
  intros Hdoc. do 5 eexists.
  split; [exact (agrees_parsed _ _ parse_smartphone Hdoc)|].
  repeat split; reflexivity.
Qed.

Lemma seed_rows_emitted (n : Z) :
  parses_seed ->
  for_rows (rows (seeded (Table [] n))) [] =
    Ok [laptop_record n; smartphone_record (n + 1)].
Proof.
  intros [Hlaptop Hphone].
  unfold seeded; cbn [rows next_id app for_rows].
  rewrite (product_of_row_shaped _ _ _ _ (laptop_has_specs n Hlaptop)).
  cbn [rbind app for_rows].
  rewrite (product_of_row_shaped _ _ _ _
             (smartphone_has_specs (n + 1) Hphone)).
  reflexivity.
Qed.

Lemma get_products_after_seeding (s : store) (n : Z) :
  parses_seed ->
  initialised (products s) = seeded (Table [] n) ->
  outcome get_products (after setup_database s) =
    Ok (jsonify [laptop_record n; smartphone_record (n + 1)]).
Proof.
  intros Hseed Hinit. unfold outcome, after.
  rewrite setup_database_run, get_products_run; simpl.
  by rewrite Hinit, seed_rows_emitted.
Qed.

(** C2, amended.  The two seed documents being parsed as the reference
    parser parses them: after [setup_database] ran on a store without
    table, or on an empty table whose sequence still stands at 1,
    GET /products returns exactly the two seed records in insertion order,
    the first being
    [{"ProductID":1,"Name":"Laptop","CPU":"Intel i7","RAM":"16GB",
    "Storage":"512GB SSD"}]; on an empty table whose sequence stands at [n]
    the same two records are returned under the keys [n] and [n + 1]. *)
Theorem get_products_after_setup (s : store) :
  parses_seed ->
  (products s = None \/ products s = Some (Table [] 1) ->
   outcome get_products (after setup_database s) =
     Ok (Response 200 (JsonBody (JArr
       [JObj [("ProductID", JInt 1); ("Name", JStr "Laptop");
              ("CPU", JStr "Intel i7"); ("RAM", JStr "16GB");
              ("Storage", JStr "512GB SSD")];
        JObj [("ProductID", JInt 2); ("Name", JStr "Smartphone");
              ("CPU", JStr "Snapdragon 888"); ("RAM", JStr "8GB");
              ("Storage", JStr "256GB")]])))) /\
  (forall n, products s = Some (Table [] n) ->
   outcome get_products (after setup_database s) =
     Ok (jsonify [laptop_record n; smartphone_record (n + 1)])).
Proof.
  intros Hseed. split.
  - intros [H | H]; rewrite (get_products_after_seeding s 1 Hseed);
      try reflexivity; by rewrite H.
  - intros n H. apply (get_products_after_seeding s n Hseed). by rewrite H.
Qed.


Lemma initialised_not_empty (t : option table) :
  rows (initialised t) <> [].
Proof. by destruct t as [[[|r rs] n]|]. Qed.

Lemma initialised_keeps (tb : table) :
  rows tb <> [] -> initialised (Some tb) = tb.
Proof. by destruct tb as [[|r rs] n]. Qed.

(** C4. [setup_database] is idempotent.  Run twice from a store without
    table or with an empty one, both runs return normally and the table
    ends with exactly two rows; from any store, a second run leaves the
    table of the first; and on a table that already holds rows it changes
    nothing. *)
Theorem setup_database_idempotent (s : store) :
  (stored_rows s = [] ->
   outcome setup_database s = Ok tt /\
   outcome setup_database (after setup_database s) = Ok tt /\
   length (stored_rows (after setup_database s)) = 2%nat /\
   length (stored_rows (after setup_database (after setup_database s))) = 2%nat)
  /\
  products (after setup_database (after setup_database s)) =
    products (after setup_database s)
  /\
  (stored_rows s <> [] ->
   outcome setup_database s = Ok tt /\
   products (after setup_database s) = products s).
Proof.
  assert (Hagain :
    products (after setup_database (after setup_database s)) =
      products (after setup_database s)).
  { unfold after. rewrite !setup_database_run; cbn [fst products].
    by rewrite initialised_keeps by apply initialised_not_empty. }
  split; [|split; [exact Hagain|]].
  - intros Hempty. unfold stored_rows in *. rewrite Hagain.
    unfold outcome, after. rewrite !setup_database_run; simpl.
    destruct (products s) as [[[|r rs] n]|]; try discriminate; done.
  - intros Hrows. unfold outcome, after. rewrite setup_database_run; simpl.
    split; [reflexivity|].
    unfold stored_rows in Hrows.
    destruct (products s) as [tb|]; [|done].
    by rewrite initialised_keeps.
Qed.

Lemma setup_database_idempotent_witness :
  length (stored_rows
            (after setup_database (after setup_database (Store None []))))
    = 2%nat /\
  products (after setup_database (Store (Some (seeded (Table [] 1))) [])) =
    Some (seeded (Table [] 1)).
Proof.
  split.
  - apply (proj1 (setup_database_idempotent (Store None []))). reflexivity.
  - apply (proj2 (proj2 (setup_database_idempotent
                           (Store (Some (seeded (Table [] 1))) [])))).
    discriminate.
Defined.

(** ** The signature demo *)

(** C8. Whatever the library's primitives are, when verification raises
    [InvalidSignature] (or any other subclass of [Exception]) the demo
    prints the failure line after its first two lines and returns normally:
    nothing is raised to the caller. *)
Theorem digital_signature_demo_reports_failure
    (private_key public_key signature entropy : Type)
    (generate_private_key : entropy -> private_key)
    (public_key_of : private_key -> public_key)
    (sign : private_key -> string -> entropy -> signature)
    (verify : public_key -> signature -> string -> option Signature.exc)
    (rk rs : entropy) (e : Signature.exc) :
  verify (public_key_of (generate_private_key rk))
         (sign (generate_private_key rk) Signature.message rs)
         Signature.message = Some e ->
  Signature.is_Exception e = true ->
  Signature.digital_signature_demo _ _ _ _
      generate_private_key public_key_of sign verify rk rs =
    ([[Signature.Str Signature.banner];
      [Signature.Str "Message signed."];
      [Signature.Str "Signature verification failed:"; Signature.Exc e]],
     None).
Proof.
  intros Hverify Hexc. unfold Signature.digital_signature_demo.
  by rewrite Hverify, Hexc.
Qed.

Lemma digital_signature_demo_reports_failure_witness :
  Signature.digital_signature_demo unit unit unit unit
      (fun _ => tt) (fun _ => tt) (fun _ _ _ => tt)
      (fun _ _ _ => Some Signature.InvalidSignature) tt tt =
    ([[Signature.Str Signature.banner];
      [Signature.Str "Message signed."];
      [Signature.Str "Signature verification failed:";
       Signature.Exc Signature.InvalidSignature]],
     None).
Proof.
  apply (digital_signature_demo_reports_failure unit unit unit unit
           (fun _ => tt) (fun _ => tt) (fun _ _ _ => tt)
           (fun _ _ _ => Some Signature.InvalidSignature) tt tt
           Signature.InvalidSignature); reflexivity.
Defined.

(** * Further properties of the code *)

(** ** The outcome of the loop body, case by case *)

Lemma product_of_row_cases (pid : Z) (name details : option string) :
  product_of_row (Row pid name details) =
    match fromstring details with
    | Raise e => Raise e
    | Ok root =>
        match ET.find "specs" root with
        | None => Raise AttributeError
        | Some specs =>
            match ET.find "cpu" specs, ET.find "ram" specs,
                  ET.find "storage" specs with
            | Some c, Some m, Some st =>
                Ok (record pid name (ET.text c) (ET.text m) (ET.text st))
            | _, _, _ => Raise AttributeError
            end
        end
    end.
Proof.
  simpl. destruct (fromstring details) as [root|e]; simpl; [|reflexivity].
  destruct (ET.find "specs" root) as [specs|]; simpl; [|reflexivity].
  destruct (ET.find "cpu" specs) as [c|]; simpl; [|reflexivity].
  destruct (ET.find "ram" specs) as [m|]; simpl; [|reflexivity].
  destruct (ET.find "storage" specs) as [st|]; simpl; reflexivity.
Qed.

Lemma product_of_row_ok_emits (r : row) (j : json) :
  product_of_row r = Ok j -> emits r j.
Proof.
  destruct r as [pid name details]. rewrite product_of_row_cases.
  destruct (fromstring details) as [root|e] eqn:Hroot; [|discriminate].
  destruct (ET.find "specs" root) as [specs|] eqn:Hspecs; [|discriminate].
  destruct (ET.find "cpu" specs) as [c|] eqn:Hc; [|discriminate].
  destruct (ET.find "ram" specs) as [m|] eqn:Hm; [|discriminate].
  destruct (ET.find "storage" specs) as [st|] eqn:Hst; [|discriminate].
  intros [= <-].
  exists (ET.text c), (ET.text m), (ET.text st).
  split; [|reflexivity]. by exists root, specs, c, m, st.
Qed.

Lemma fails_with_raises (r : row) (e : exn) :
  fails_with r e -> product_of_row r = Raise e.
Proof.
  destruct r as [pid name details]. rewrite product_of_row_cases.
  intros [Hnull | src Hsrc Hparse | root Hroot Hspecs
          | root specs Hroot Hspecs Hchild]; simpl in *.
  - by rewrite Hnull.
  - rewrite Hsrc; simpl. by rewrite Hparse.
  - by rewrite Hroot, Hspecs.
  - rewrite Hroot, Hspecs.
    destruct (ET.find "cpu" specs), (ET.find "ram" specs),
      (ET.find "storage" specs); try reflexivity.
    by destruct Hchild as [? | [? | ?]].
Qed.

Lemma raises_fails_with (r : row) (e : exn) :
  product_of_row r = Raise e -> fails_with r e.
Proof.
  destruct r as [pid name details]. rewrite product_of_row_cases.
  destruct (fromstring details) as [root|e'] eqn:Hroot.
  - destruct (ET.find "specs" root) as [specs|] eqn:Hspecs.
    + destruct (ET.find "cpu" specs) as [c|] eqn:Hc;
        [destruct (ET.find "ram" specs) as [m|] eqn:Hm;
           [destruct (ET.find "storage" specs) as [st|] eqn:Hst|]|];
        intros [= <-]; eapply fails_no_child; eauto.
    + intros [= <-]. eapply fails_no_specs; eauto.
  - intros [= <-]. unfold fromstring in Hroot.
    destruct details as [src|]; simpl in *.
    + destruct (parser src) eqn:Hparse; [discriminate|].
      injection Hroot as <-. by eapply fails_parse.
    + injection Hroot as <-. by apply fails_null.
Qed.

Lemma for_rows_ok (rs : list row) :
  forall acc l,
    for_rows rs acc = Ok l ->
    exists items, l = acc ++ items /\ Forall2 emits rs items.
Proof.
  induction rs as [|r rs IH]; intros acc l; simpl.
  - intros [= <-]. exists []. split; [by rewrite app_nil_r | constructor].
  - destruct (product_of_row r) as [j|e] eqn:Hr; simpl; [|discriminate].
    intros Hrun. destruct (IH _ _ Hrun) as (items & -> & Hitems).
    exists (j :: items). split; [by rewrite <- app_assoc|].
    constructor; [by apply product_of_row_ok_emits | exact Hitems].
Qed.

Lemma for_rows_first_failure (good rest : list row) (bad : row) (e : exn) :
  Forall well_shaped good ->
  product_of_row bad = Raise e ->
  forall acc, for_rows (good ++ bad :: rest) acc = Raise e.
Proof.
  intros Hgood Hbad.
  induction Hgood as [|r good (cpu & ram & storage & Hr) _ IH]; intros acc;
    simpl.
  - by rewrite Hbad.
  - rewrite (product_of_row_shaped r cpu ram storage Hr); simpl. apply IH.
Qed.

(** ** One request, in terms of the table alone *)

Lemma get_products_answer (s : store) :
  get_products s =
    (Store (products s) (conns s ++ [left_as (answer (products s))]),
     answer (products s)).
Proof.
  rewrite get_products_run. unfold answer.
  destruct (products s) as [tb|]; [|reflexivity].
  by destruct (for_rows (rows tb) []).
Qed.

Lemma GET_products_store (s : store) :
  fst (GET_products s) =
    Store (products s) (conns s ++ [left_as (answer (products s))]).
Proof.
  unfold GET_products, dispatch. rewrite get_products_answer.
  by destruct (answer (products s)).
Qed.

Lemma count_open_app (l l' : list conn_status) :
  count_open (l ++ l') = (count_open l + count_open l')%nat.
Proof.
  induction l as [|[|] l IH]; simpl; [reflexivity| |]; by rewrite IH.
Qed.

Lemma seed_rows_well_shaped (n : Z) :
  parses_seed ->
  Forall well_shaped (rows (seeded (Table [] n))).
Proof.
  intros [Hlaptop Hphone]. unfold seeded; cbn [rows next_id app].
  repeat constructor.
  - do 3 eexists. apply (laptop_has_specs n Hlaptop).
  - do 3 eexists. apply (smartphone_has_specs (n + 1) Hphone).
Qed.

Lemma initialised_well_shaped (t : option table) :
  parses_seed ->
  (forall tb, t = Some tb -> Forall well_shaped (rows tb)) ->
  Forall well_shaped (rows (initialised t)).
Proof.
  intros Hseed Ht. destruct t as [[[|r rs] n]|]; cbn [initialised rows].
  - apply (seed_rows_well_shaped n Hseed).
  - apply (Ht _ eq_refl).
  - apply (seed_rows_well_shaped 1 Hseed).
Qed.

(** ** The catalogue reader, beyond the well-shaped case *)

(** X1. The loop body raises [e] on a row exactly when the row fails in one
    of four ways: NULL Details ([TypeError]), a document the parser rejects
    ([ParseError]), a root without [specs], or a [specs] lacking one of
    [cpu], [ram], [storage] (both [AttributeError]). *)
Theorem product_of_row_raises_iff (r : row) (e : exn) :
  product_of_row r = Raise e <-> fails_with r e.
Proof. split; [apply raises_fails_with | apply fails_with_raises]. Qed.

(** X2. Whenever [get_products] returns, the table exists, every one of its
    rows is well shaped, and the response is the 200 response carrying one
    record per row, in the table's order. *)
Theorem get_products_returns_only_records (s : store) (resp : response) :
  outcome get_products s = Ok resp ->
  exists tb items,
    products s = Some tb /\
    resp = Response 200 (JsonBody (JArr items)) /\
    Forall2 emits (rows tb) items /\
    Forall well_shaped (rows tb).
Proof.
  unfold outcome. rewrite get_products_run.
  destruct (products s) as [tb|]; [|discriminate].
  destruct (for_rows (rows tb) []) as [l|e] eqn:Hrun; [|discriminate].
  intros [= <-].
  destruct (for_rows_ok _ _ _ Hrun) as (items & -> & Hitems).
  exists tb, items. repeat split; try done.
  clear Hrun. induction Hitems as [|r j rs js (cpu & ram & st & Hr & _) _ IH];
    constructor; [by exists cpu, ram, st | exact IH].
Qed.


(** X3. The first row that fails decides the outcome: when the rows before
    it are well shaped, [get_products] raises that row's exception, the
    client receives the 500 page, and the rows after it play no part. *)
Theorem get_products_first_failure
    (s : store) (tb : table) (good rest : list row) (bad : row) (e : exn) :
  products s = Some tb ->
  rows tb = good ++ bad :: rest ->
  Forall well_shaped good ->
  fails_with bad e ->
  outcome get_products s = Raise e /\
  snd (GET_products s) = Response 500 (ErrorPage e).
Proof.
  intros Htb Hrows Hgood Hbad.
  unfold outcome, GET_products, dispatch.
  rewrite get_products_run, Htb, Hrows.
  rewrite (for_rows_first_failure good rest bad e Hgood
             (fails_with_raises bad e Hbad)).
  by split.
Qed.


(** X4. When the table [Products] does not exist, the SELECT raises
    [UndefinedTable]: the view raises it and the client receives the 500
    page. *)
Theorem get_products_missing_table (s : store) :
  products s = None ->
  outcome get_products s = Raise UndefinedTable /\
  snd (GET_products s) = Response 500 (ErrorPage UndefinedTable).
Proof.
  intros Hnone. unfold outcome, GET_products, dispatch.
  rewrite get_products_run, Hnone. by split.
Qed.


(** X5. A request opens exactly one connection and touches no other: the
    connections after it are those before it followed by the new one, which
    is closed when the view returned and open when it raised. *)
Theorem get_products_connections (s : store) :
  conns (after get_products s) =
    conns s ++ [left_as (outcome get_products s)] /\
  (conns (after get_products s) !! new_conn s = Some Closed <->
   exists resp, outcome get_products s = Ok resp).
Proof.
  unfold after, outcome, new_conn. rewrite get_products_answer; simpl.
  split; [reflexivity|].
  rewrite list_lookup_middle by reflexivity.
  destruct (answer (products s)) as [resp|e]; simpl; split.
  - intros _. by exists resp.
  - done.
  - discriminate.
  - intros [resp ?]. discriminate.
Qed.

(** X6. The answer to GET /products is a function of the table: two stores
    with the same table, whatever their connections, get the same outcome
    and the same response. *)
Theorem get_products_depends_on_table_only (s s' : store) :
  products s = products s' ->
  outcome get_products s = outcome get_products s' /\
  snd (GET_products s) = snd (GET_products s').
Proof.
  intros Heq. unfold outcome, GET_products, dispatch.
  rewrite !get_products_answer, Heq; simpl.
  by destruct (answer (products s')).
Qed.


(** ** Requests in sequence *)

Lemma serve_products (k : nat) :
  forall s, products (serve k s) = products s.
Proof.
  induction k as [|k IH]; intros s; simpl; [reflexivity|].
  by rewrite IH, GET_products_store.
Qed.

Lemma serve_count_open (k : nat) :
  forall s,
    count_open (conns (serve k s)) =
      (count_open (conns s)
       + k * count_open [left_as (answer (products s))])%nat.
Proof.
  induction k as [|k IH]; intros s; simpl serve.
  - lia.
  - rewrite IH, GET_products_store; cbn [products conns].
    rewrite count_open_app. lia.
Qed.

(** X7. Reads repeat: after any number of requests the table is the same
    and the next request gets the response the first one got. *)
Theorem serve_repeats_the_answer (k : nat) (s : store) :
  products (serve k s) = products s /\
  snd (GET_products (serve k s)) = snd (GET_products s).
Proof.
  split; [apply serve_products|].
  unfold GET_products, dispatch.
  rewrite !get_products_answer, serve_products; simpl.
  by destruct (answer (products s)).
Qed.

(** X8. Each failing request leaves one more connection open: after [k]
    requests the number of open connections has grown by [k] when the view
    raises on the table, and not at all when it returns. *)
Theorem serve_leaks_per_failure (k : nat) (s : store) :
  count_open (conns (serve k s)) =
    (count_open (conns s) +
     match outcome get_products s with
     | Ok _ => 0
     | Raise _ => k
     end)%nat.
Proof.
  rewrite serve_count_open. unfold outcome.
  rewrite get_products_answer; simpl.
  destruct (answer (products s)); simpl; lia.
Qed.

(** X9. Every record carries the key and the name of its row: the record
    at position [i] of a returned array has the [ProductID] of the row at
    position [i], and its [Name], which is JSON null for a NULL name. *)
Theorem get_products_record_key_and_name
    (s : store) (tb : table) (items : list json) (i : nat) (r : row) :
  products s = Some tb ->
  outcome get_products s = Ok (Response 200 (JsonBody (JArr items))) ->
  rows tb !! i = Some r ->
  exists j,
    items !! i = Some j /\
    member "ProductID" j = Some (JInt (ProductID r)) /\
    member "Name" j = Some (of_text (Name r)) /\
    (Name r = None -> member "Name" j = Some JNull).
Proof.
  intros Htb Hout Hi. unfold outcome in Hout.
  rewrite get_products_run, Htb in Hout.
  destruct (for_rows (rows tb) []) as [l|e] eqn:Hrun; [|discriminate].
  injection Hout as <-.
  destruct (for_rows_ok _ _ _ Hrun) as (items & -> & Hitems).
  destruct (Forall2_lookup_l _ _ _ _ _ Hitems Hi)
    as (j & Hj & cpu & ram & st & _ & ->).
  exists (record (ProductID r) (Name r) cpu ram st).
  repeat split; try done. intros ->. reflexivity.
Qed.


(** ** The schema initialiser, on every store *)


(** X11. [setup_database] keeps the primary key sound: when the table is
    absent, or its keys are unique and below the sequence, the table it
    leaves has unique keys below the sequence. *)
Theorem setup_database_keeps_keys_consistent (s : store) :
  (forall tb, products s = Some tb -> keys_consistent tb) ->
  exists tb',
    products (after setup_database s) = Some tb' /\ keys_consistent tb'.
Proof.
  intros Hkeys. unfold after. rewrite setup_database_run; simpl.
  eexists; split; [reflexivity|].
  assert (Hseed : forall n, keys_consistent (seeded (Table [] n))).
  { intros n. unfold keys_consistent, seeded; simpl. split.
    - apply NoDup_cons. split.
      + rewrite list_elem_of_singleton. lia.
      + apply NoDup_singleton.
    - repeat constructor; simpl; lia. }
  destruct (products s) as [[[|r rs] n]|] eqn:Htb; simpl.
  - apply Hseed.
  - by apply Hkeys.
  - apply Hseed.
Qed.

Lemma setup_database_keeps_keys_consistent_witness :
  exists tb',
    products (after setup_database (Store (Some (Table [] 5)) [])) = Some tb'
    /\ keys_consistent tb'.
Proof.
  apply (setup_database_keeps_keys_consistent (Store (Some (Table [] 5)) [])).
  intros tb [= <-]. split; constructor.
Defined.

(** X12. After [setup_database] the table exists and holds at least one
    row, so a request neither fails with [UndefinedTable] nor returns the
    empty array. *)
Theorem setup_database_leaves_rows (s : store) :
  (exists tb, products (after setup_database s) = Some tb /\ rows tb <> []) /\
  outcome get_products (after setup_database s) <> Raise UndefinedTable /\
  outcome get_products (after setup_database s) <> Ok (jsonify []).
Proof.
  unfold after, outcome.
  rewrite setup_database_run, get_products_run; simpl.
  pose proof (initialised_not_empty (products s)) as Hrows.
  split; [by eexists|].
  destruct (for_rows (rows (initialised (products s))) []) as [l|e] eqn:Hrun.
  - split; [discriminate|]. intros [= ->].
    destruct (for_rows_ok _ _ _ Hrun) as (items & Hnil & Hitems).
    symmetry in Hnil. apply app_eq_nil in Hnil as [_ ->].
    inversion Hitems as [Hempty|]; subst. by apply Hrows.
  - split; [|discriminate].
    intros [= ->]. clear Hrows.
    destruct (initialised (products s)) as [rs n]; simpl in Hrun.
    revert Hrun. generalize (@nil json).
    induction rs as [|r rs IH]; intros acc; simpl; [discriminate|].
    destruct (product_of_row r) as [j|e] eqn:Hr; simpl.
    + apply IH.
    + intros [= ->]. apply raises_fails_with in Hr. inversion Hr.
Qed.

(** X13. The two seed documents being parsed as the reference parser
    parses them, [setup_database] keeps the rows well shaped: when the
    table is absent or all its rows are well shaped, so are the rows
    afterwards, and the next request answers 200 with as many records as
    there are rows. *)
Theorem setup_database_keeps_rows_well_shaped (s : store) :
  parses_seed ->
  (forall tb, products s = Some tb -> Forall well_shaped (rows tb)) ->
  exists tb' items,
    products (after setup_database s) = Some tb' /\
    Forall well_shaped (rows tb') /\
    outcome get_products (after setup_database s) =
      Ok (Response 200 (JsonBody (JArr items))) /\
    length items = length (rows tb').
Proof.
  intros Hseed Hshape.
  pose proof (initialised_well_shaped _ Hseed Hshape) as Hinit.
  destruct (for_rows_shaped _ Hinit []) as (items & Hrun & Hitems).
  exists (initialised (products s)), items.
  unfold after, outcome.
  rewrite setup_database_run, get_products_run; simpl. rewrite Hrun.
  repeat split; try done.
  symmetry. by eapply Forall2_length.
Qed.



End Catalogue.

(** * Instances

    The statements above hold for every parser.  Those that carry a
    hypothesis are instantiated here at [ET.plain_parser], which agrees
    with the reference parser on every document. *)

Lemma plain_parser_agrees (src : string) : ET.agrees ET.plain_parser src.
Proof.
  unfold ET.agrees, ET.plain_parser. by destruct (ET.parse src).
Qed.

Lemma get_products_one_record_per_row_witness :
  exists items,
    outcome (get_products ET.plain_parser)
            (Store (Some (seeded (Table [] 1))) []) =
      Ok (Response 200 (JsonBody (JArr items))) /\
    Forall2 (emits ET.plain_parser) (rows (seeded (Table [] 1))) items.
Proof.
  apply (get_products_one_record_per_row ET.plain_parser _
           (seeded (Table [] 1))); [reflexivity|].
  repeat constructor; unfold well_shaped, has_specs;
    do 8 eexists; repeat split; reflexivity.
Defined.

(** C2, as stated, fails for every parser that reads the seed documents
    as the reference parser does: from an empty table whose sequence has
    already handed out keys 1 to 4, the seed rows receive keys 5 and 6, and
    the first record of GET /products does not carry ProductID 1. *)
Lemma seed_keys_follow_the_sequence :
  ~ (exists parser,
       parses_seed parser /\
       forall s, empty_table s ->
         exists second,
           outcome (get_products parser) (after setup_database s) =
             Ok (jsonify [laptop_record 1; second])).
Proof.
  intros (parser & Hseed & H).
  destruct (H (Store (Some (Table [] 5)) []) (ex_intro _ 5 eq_refl))
    as [second Hfirst].
  rewrite (get_products_after_seeding parser
             (Store (Some (Table [] 5)) []) 5 Hseed eq_refl) in Hfirst.
  discriminate Hfirst.
Qed.

Lemma get_products_after_setup_witness :
  outcome (get_products ET.plain_parser)
          (after setup_database (Store None [])) =
    Ok (jsonify [laptop_record 1; smartphone_record 2]) /\
  outcome (get_products ET.plain_parser)
          (after setup_database (Store (Some (Table [] 5)) [])) =
    Ok (jsonify [laptop_record 5; smartphone_record 6]).
Proof.
  split.
  - apply (proj1 (get_products_after_setup ET.plain_parser (Store None [])
                    (conj eq_refl eq_refl))).
    left. reflexivity.
  - apply (proj2 (get_products_after_setup ET.plain_parser
                    (Store (Some (Table [] 5)) []) (conj eq_refl eq_refl)) 5).
    reflexivity.
Defined.

Lemma get_products_fails_on_bad_row_witness :
  (exists e,
     outcome (get_products ET.plain_parser) no_specs_store = Raise e /\
     snd (GET_products ET.plain_parser no_specs_store) =
       Response 500 (ErrorPage e)) /\
  (forall resp,
     outcome (get_products ET.plain_parser) no_specs_store <> Ok resp).
Proof.
  apply (get_products_fails_on_bad_row ET.plain_parser no_specs_store
           (Table [Row 1 (Some "Widget") (Some no_specs_xml)] 2)
           (Row 1 (Some "Widget") (Some no_specs_xml))).
  - reflexivity.
  - simpl. left. reflexivity.
  - right. eexists. split; reflexivity.
Defined.

Lemma get_products_error_leaves_connection_open_witness :
  outcome (get_products ET.plain_parser) no_specs_store
    = Raise AttributeError /\
  conns (after (get_products ET.plain_parser) no_specs_store)
    !! new_conn no_specs_store = Some Open /\
  conns (fst (GET_products ET.plain_parser no_specs_store))
    !! new_conn no_specs_store = Some Open.
Proof.
  apply (get_products_error_leaves_connection_open ET.plain_parser).
  reflexivity.
Defined.

Lemma get_products_empty_table_witness :
  outcome (get_products ET.plain_parser) (Store (Some (Table [] 1)) []) =
    Ok (jsonify []) /\
  snd (GET_products ET.plain_parser (Store (Some (Table [] 1)) [])) =
    Response 200 (JsonBody (JArr [])).
Proof.
  apply (get_products_empty_table ET.plain_parser
           (Store (Some (Table [] 1)) [])).
  exists 1. reflexivity.
Defined.

Lemma get_products_null_for_blank_element_witness :
  exists items j,
    snd (GET_products ET.plain_parser blank_specs_store) =
      Response 200 (JsonBody (JArr items)) /\
    items !! 0%nat = Some j /\
    j = record 7 (Some "Tablet") None (Some "8GB") None /\
    (@None string = None -> member "CPU" j = Some JNull) /\
    (Some "8GB" = None -> member "RAM" j = Some JNull) /\
    (@None string = None -> member "Storage" j = Some JNull).
Proof.
  apply (get_products_null_for_blank_element ET.plain_parser
           blank_specs_store
           (Table [Row 7 (Some "Tablet") (Some blank_specs_xml)] 8)
           0%nat
           (Row 7 (Some "Tablet") (Some blank_specs_xml))
           (ET.Elem "product" None
              [ET.Elem "specs" None
                 [ET.Elem "cpu" None []; ET.Elem "ram" (Some "8GB") [];
                  ET.Elem "storage" None []]])
           (ET.Elem "specs" None
              [ET.Elem "cpu" None []; ET.Elem "ram" (Some "8GB") [];
               ET.Elem "storage" None []])
           (ET.Elem "cpu" None []) (ET.Elem "ram" (Some "8GB") [])
           (ET.Elem "storage" None [])); try reflexivity.
  repeat constructor; unfold well_shaped, has_specs;
    do 8 eexists; repeat split; reflexivity.
Defined.

Lemma get_products_returns_only_records_witness :
  exists tb items,
    products blank_specs_store = Some tb /\
    jsonify [record 7 (Some "Tablet") None (Some "8GB") None] =
      Response 200 (JsonBody (JArr items)) /\
    Forall2 (emits ET.plain_parser) (rows tb) items /\
    Forall (well_shaped ET.plain_parser) (rows tb).
Proof.
  apply (get_products_returns_only_records ET.plain_parser
           blank_specs_store).
  reflexivity.
Defined.

Lemma get_products_first_failure_witness :
  outcome (get_products ET.plain_parser)
    (Store (Some (Table (rows (seeded (Table [] 1)) ++
                         Row 3 (Some "Widget") None ::
                         [Row 4 None (Some "<product>")]) 5)) [])
    = Raise TypeError /\
  snd (GET_products ET.plain_parser
    (Store (Some (Table (rows (seeded (Table [] 1)) ++
                         Row 3 (Some "Widget") None ::
                         [Row 4 None (Some "<product>")]) 5)) []))
    = Response 500 (ErrorPage TypeError).
Proof.
  apply (get_products_first_failure ET.plain_parser _
           (Table (rows (seeded (Table [] 1)) ++
                   Row 3 (Some "Widget") None ::
                   [Row 4 None (Some "<product>")]) 5)
           (rows (seeded (Table [] 1)))
           [Row 4 None (Some "<product>")]
           (Row 3 (Some "Widget") None) TypeError).
  - reflexivity.
  - reflexivity.
  - repeat constructor; unfold well_shaped, has_specs;
      do 8 eexists; repeat split; reflexivity.
  - apply fails_null. reflexivity.
Defined.

Lemma get_products_missing_table_witness :
  outcome (get_products ET.plain_parser) (Store None [Closed])
    = Raise UndefinedTable /\
  snd (GET_products ET.plain_parser (Store None [Closed])) =
    Response 500 (ErrorPage UndefinedTable).
Proof.
  apply (get_products_missing_table ET.plain_parser (Store None [Closed])).
  reflexivity.
Defined.

Lemma get_products_depends_on_table_only_witness :
  outcome (get_products ET.plain_parser)
          (Store (Some (seeded (Table [] 1))) []) =
    outcome (get_products ET.plain_parser)
      (Store (Some (seeded (Table [] 1))) [Open; Closed; Open]) /\
  snd (GET_products ET.plain_parser (Store (Some (seeded (Table [] 1))) [])) =
    snd (GET_products ET.plain_parser
           (Store (Some (seeded (Table [] 1))) [Open; Closed; Open])).
Proof.
  apply (get_products_depends_on_table_only ET.plain_parser
           (Store (Some (seeded (Table [] 1))) [])
           (Store (Some (seeded (Table [] 1))) [Open; Closed; Open])).
  reflexivity.
Defined.

Lemma get_products_record_key_and_name_witness :
  exists j,
    [record 9 None (Some "i5") (Some "4GB") (Some "1TB")] !! 0%nat = Some j /\
    member "ProductID" j = Some (JInt 9) /\
    member "Name" j = Some JNull /\
    (@None string = None -> member "Name" j = Some JNull).
Proof.
  apply (get_products_record_key_and_name ET.plain_parser
           (Store (Some (Table [Row 9 None (Some
  "<p><specs><cpu>i5</cpu><ram>4GB</ram><storage>1TB</storage></specs></p>")]
                               10)) [])
           (Table [Row 9 None (Some
  "<p><specs><cpu>i5</cpu><ram>4GB</ram><storage>1TB</storage></specs></p>")]
                  10)
           [record 9 None (Some "i5") (Some "4GB") (Some "1TB")]
           0%nat
           (Row 9 None (Some
  "<p><specs><cpu>i5</cpu><ram>4GB</ram><storage>1TB</storage></specs></p>")));
    reflexivity.
Defined.

Lemma setup_database_keeps_rows_well_shaped_witness :
  exists tb' items,
    products (after setup_database (Store None [])) = Some tb' /\
    Forall (well_shaped ET.plain_parser) (rows tb') /\
    outcome (get_products ET.plain_parser)
            (after setup_database (Store None [])) =
      Ok (Response 200 (JsonBody (JArr items))) /\
    length items = length (rows tb').
Proof.
  apply (setup_database_keeps_rows_well_shaped ET.plain_parser
           (Store None [])).
  - split; reflexivity.
  - intros tb Htb. discriminate Htb.
Defined.

(** ** The signature demo, on every outcome of the verification *)

Section DemoFacts.

Variables private_key public_key signature entropy : Type.
Variable generate_private_key : entropy -> private_key.
Variable public_key_of : private_key -> public_key.
Variable sign : private_key -> string -> entropy -> signature.
Variable verify : public_key -> signature -> string -> option Signature.exc.

Local Abbreviation verification rk rs :=
  (verification _ _ _ _ generate_private_key public_key_of sign verify rk rs).
Local Abbreviation demo rk rs :=
  (Signature.digital_signature_demo _ _ _ _
     generate_private_key public_key_of sign verify rk rs).
Local Abbreviation startup rk rs s :=
  (main _ _ _ _ generate_private_key public_key_of sign verify rk rs s).

Lemma demo_cases (rk rs : entropy) :
  demo rk rs =
    match verification rk rs with
    | None =>
        ([[Signature.Str Signature.banner];
          [Signature.Str "Message signed."];
          [Signature.Str "Signature verified successfully!"]], None)
    | Some e =>
        if Signature.is_Exception e
        then ([[Signature.Str Signature.banner];
               [Signature.Str "Message signed."];
               [Signature.Str "Signature verification failed:";
                Signature.Exc e]], None)
        else ([[Signature.Str Signature.banner];
               [Signature.Str "Message signed."]], Some e)
    end.
Proof.
  unfold Signature.digital_signature_demo, verification.
  destruct (verify _ _ _) as [e|]; [|reflexivity].
  by destruct (Signature.is_Exception e).
Qed.

(** X14. The demo prints the success line exactly when the verification
    returned without raising. *)
Theorem demo_success_line_iff (rk rs : entropy) :
  In [Signature.Str "Signature verified successfully!"]
     (fst (demo rk rs))
  <-> verification rk rs = None.
Proof.
  rewrite demo_cases.
  destruct (verification rk rs) as [e|]; simpl.
  - split; [|discriminate].
    destruct (Signature.is_Exception e); simpl;
      intros H; repeat destruct H as [H|H]; try discriminate H;
        try contradiction.
  - split; [reflexivity|]. intros _. right. right. by left.
Qed.

(** X15. The demo lets an exception through exactly when the verification
    raised one that is not an [Exception] (a [KeyboardInterrupt]); in that
    case nothing is printed after the line that reports the signing. *)
Theorem demo_raises_iff (rk rs : entropy) (e : Signature.exc) :
  (snd (demo rk rs) = Some e
   <-> verification rk rs = Some e /\ Signature.is_Exception e = false) /\
  (snd (demo rk rs) = Some e ->
   fst (demo rk rs) =
     [[Signature.Str Signature.banner]; [Signature.Str "Message signed."]]).
Proof.
  rewrite demo_cases.
  destruct (verification rk rs) as [e'|]; simpl.
  - destruct (Signature.is_Exception e') eqn:Hexc; simpl.
    + split; [split|]; try discriminate.
      intros [[= ->] Hfalse]. congruence.
    + split; [split|]; try done.
      * intros [= ->]. by split.
      * by intros [[= ->] _].
  - split; [split|]; try discriminate. by intros [? _].
Qed.

(** ** The startup block *)

Lemma main_cases (rk rs : entropy) (s : store) :
  startup rk rs s =
    let s' := Store (Some (initialised (products s))) (conns s ++ [Closed]) in
    let head := [[Signature.Str "Setting up database..."];
                 [Signature.Str "Database setup complete."];
                 [Signature.Str Signature.banner];
                 [Signature.Str "Message signed."]] in
    let tail := [[Signature.Str performance_tips];
                 [Signature.Str
                    "Starting Flask server at http://127.0.0.1:5000/products"]]
    in
    match verification rk rs with
    | None =>
        (s', head ++ [[Signature.Str "Signature verified successfully!"]]
               ++ tail, Serving)
    | Some e =>
        if Signature.is_Exception e
        then (s', head ++ [[Signature.Str "Signature verification failed:";
                            Signature.Exc e]] ++ tail, Serving)
        else (s', head, DemoFailed e)
    end.
Proof.
  unfold main. rewrite setup_database_run, demo_cases.
  destruct (verification rk rs) as [e|]; [|reflexivity].
  by destruct (Signature.is_Exception e).
Qed.



(** X18. A startup whose verification succeeds prints seven lines in this
    order (the two setup lines, the three lines of the demo, the tips, the
    server line) and starts the server on the initialised store. *)
Theorem main_normal_startup (rk rs : entropy) (s : store) :
  verification rk rs = None ->
  startup rk rs s =
    (after setup_database s,
     [[Signature.Str "Setting up database..."];
      [Signature.Str "Database setup complete."];
      [Signature.Str Signature.banner];
      [Signature.Str "Message signed."];
      [Signature.Str "Signature verified successfully!"];
      [Signature.Str performance_tips];
      [Signature.Str
         "Starting Flask server at http://127.0.0.1:5000/products"]],
     Serving).
Proof.
  intros Hverified. rewrite main_cases, Hverified.
  unfold after. by rewrite setup_database_run.
Qed.

End DemoFacts.

Lemma main_normal_startup_witness :
  main unit unit unit unit (fun _ => tt) (fun _ => tt) (fun _ _ _ => tt)
       (fun _ _ _ => None) tt tt (Store None []) =
    (after setup_database (Store None []),
     [[Signature.Str "Setting up database..."];
      [Signature.Str "Database setup complete."];
      [Signature.Str Signature.banner];
      [Signature.Str "Message signed."];
      [Signature.Str "Signature verified successfully!"];
      [Signature.Str performance_tips];
      [Signature.Str
         "Starting Flask server at http://127.0.0.1:5000/products"]],
     Serving).
Proof.
  apply (main_normal_startup unit unit unit unit
           (fun _ => tt) (fun _ => tt) (fun _ _ _ => tt)
           (fun _ _ _ => None) tt tt (Store None [])).
  reflexivity.
Defined.

Lemma demo_raises_iff_witness :
  fst (Signature.digital_signature_demo unit unit unit unit
         (fun _ => tt) (fun _ => tt) (fun _ _ _ => tt)
         (fun _ _ _ => Some Signature.KeyboardInterrupt) tt tt) =
    [[Signature.Str Signature.banner]; [Signature.Str "Message signed."]].
Proof.
  apply (proj2 (demo_raises_iff unit unit unit unit
                  (fun _ => tt) (fun _ => tt) (fun _ _ _ => tt)
                  (fun _ _ _ => Some Signature.KeyboardInterrupt) tt tt
                  Signature.KeyboardInterrupt)).
  reflexivity.
Defined.


